(** * The course catalog routes of the T2S Courses backend

    A shallow embedding of [routes/courses.js]:

<<
    const courses = require('../data/courses.json');

    router.get('/', (req, res) => {
      res.json(courses);
    });

    router.get('/:id', (req, res) => {
      const course = courses.find((c) => c.id === parseInt(req.params.id));
      if (course) {
        res.json(course);
      } else {
        res.status(404).json({ error: 'Course not found' });
      }
    });
>>

    The JavaScript built-ins the two handlers call ([parseInt], [===],
    [Array.prototype.find]) and the two Express response methods
    ([status], [json]) are embedded first, then the router itself. *)

From Stdlib Require Import ZArith NArith List String Ascii Bool Lia Permutation.
Import ListNotations.
Local Open Scope string_scope.
Local Open Scope list_scope.
Local Open Scope Z_scope.
Set Warnings "-register-all".

(* ================================================================== *)
(** ** JavaScript values and built-ins *)

Module JS.

(** A JavaScript string is a sequence of UTF-16 code units. *)
Definition code_unit := N.
Definition jsstring := list code_unit.

(** The code units of an ASCII literal. *)
Definition code_units (s : string) : jsstring :=
  map N_of_ascii (list_ascii_of_string s).

(** The Number values that matter for [c.id === parseInt(...)]: [parseInt]
    returns NaN, an infinity or an integer-valued finite Number.  [+0] and
    [-0] are both [Finite 0]: [===] does not tell them apart.  An [id] that
    is a fractional Number is outside the Course data model (a positive
    integer) and is not represented. *)
Inductive number : Type :=
| NaN
| Infinity (negative : bool)
| Finite (z : Z).

(** Round a non-negative integer to the nearest binary64 value, ties to
    even: 53 significant bits are kept. *)
Definition round_binary64 (m : Z) : Z :=
  if m <? 2 ^ 53 then m
  else
    let k := Z.log2 m - 52 in
    let q := m / 2 ^ k in
    let r := m mod 2 ^ k in
    let half := 2 ^ (k - 1) in
    let q' := if r <? half then q
              else if half <? r then q + 1
              else if Z.even q then q else q + 1 in
    q' * 2 ^ k.

(** The Number value for a mathematical integer. *)
Definition number_value (x : Z) : number :=
  let m := round_binary64 (Z.abs x) in
  if 2 ^ 1024 <=? m then Infinity (x <? 0) else Finite (Z.sgn x * m).

(** [StrWhiteSpaceChar]: WhiteSpace and LineTerminator code units. *)
Definition is_white_space (c : code_unit) : bool :=
  ((9 <=? c) && (c <=? 13) || (c =? 32) || (c =? 160) || (c =? 5760)
   || (8192 <=? c) && (c <=? 8202) || (c =? 8232) || (c =? 8233)
   || (c =? 8239) || (c =? 8287) || (c =? 12288) || (c =? 65279))%N.

Fixpoint trim_start (s : jsstring) : jsstring :=
  match s with
  | c :: t => if is_white_space c then trim_start t else s
  | [] => []
  end.

(** The value of a code unit as a digit: [0-9], [a-z], [A-Z]. *)
Definition digit_value (c : code_unit) : option Z :=
  if ((48 <=? c) && (c <=? 57))%N then Some (Z.of_N c - 48)
  else if ((97 <=? c) && (c <=? 122))%N then Some (Z.of_N c - 87)
  else if ((65 <=? c) && (c <=? 90))%N then Some (Z.of_N c - 55)
  else None.

Definition is_radix_digit (R : Z) (c : code_unit) : bool :=
  match digit_value c with
  | Some d => d <? R
  | None => false
  end.

(** The longest prefix of radix-[R] digits, as digit values. *)
Fixpoint take_digits (R : Z) (s : jsstring) : list Z :=
  match s with
  | c :: t =>
      match digit_value c with
      | Some d => if d <? R then d :: take_digits R t else []
      | None => []
      end
  | [] => []
  end.

(** The integer denoted by a list of digits in radix [R]. *)
Definition math_int (R : Z) (ds : list Z) : Z :=
  fold_left (fun acc d => acc * R + d) ds 0.

(** [parseInt(string)] with the radix argument omitted: leading white space
    is dropped, then an optional sign, then a [0x] or [0X] prefix selects
    radix 16 (radix 10 otherwise); the longest prefix of digits is read and
    whatever follows is ignored; no digit at all gives NaN. *)
Definition parseInt (input : jsstring) : number :=
  let s := trim_start input in
  let '(sign, s) :=
    match s with
    | c :: t => if (c =? 45)%N then (-1, t)
                else if (c =? 43)%N then (1, t)
                else (1, s)
    | [] => (1, [])
    end in
  let '(R, s) :=
    match s with
    | c0 :: c1 :: t =>
        if ((c0 =? 48) && ((c1 =? 120) || (c1 =? 88)))%N
        then (16, t) else (10, s)
    | _ => (10, s)
    end in
  match take_digits R s with
  | [] => NaN
  | ds => number_value (sign * math_int R ds)
  end.

(** The decimal spelling of an integer: its exact decimal digits, with a
    minus sign when negative.  Up to [2^53] in absolute value this is the
    string [Number::toString] prints. *)
Fixpoint decimal_digits (fuel : nat) (n : Z) (acc : jsstring) : jsstring :=
  match fuel with
  | O => acc
  | S fuel' =>
      let acc' := Z.to_N (48 + n mod 10) :: acc in
      if n / 10 =? 0 then acc' else decimal_digits fuel' (n / 10) acc'
  end.

Definition integer_toString (z : Z) : jsstring :=
  let m := Z.abs z in
  let ds := decimal_digits (S (Z.to_nat (Z.log2 m))) m [] in
  if z <? 0 then 45%N :: ds else ds.

(** JSON values, as [require] of a [.json] file produces them, and
    [undefined]. *)
Inductive value : Type :=
| VUndefined
| VNull
| VBoolean (b : bool)
| VNumber (n : number)
| VString (s : string)
| VArray (elements : list value)
| VObject (properties : list (string * value)).

(** An object: its own properties in insertion order (keys distinct). *)
Definition object := list (string * value).

(** Property access [o.k]: [undefined] when [o] has no property [k]. *)
Fixpoint Get (o : object) (k : string) : value :=
  match o with
  | (k', v) :: rest => if String.eqb k' k then v else Get rest k
  | [] => VUndefined
  end.

(** [Number::equal]: NaN equals nothing, itself included. *)
Definition Number_equal (x y : number) : bool :=
  match x, y with
  | Finite a, Finite b => a =? b
  | Infinity a, Infinity b => Bool.eqb a b
  | _, _ => false
  end.

(** [x === y] where [y] is a Number: false unless [x] is a Number too. *)
Definition strict_equals_number (x : value) (y : number) : bool :=
  match x with
  | VNumber n => Number_equal n y
  | _ => false
  end.

(** [Array.prototype.find]: the first element, in index order, on which the
    predicate holds; [None] stands for [undefined]. *)
Fixpoint find {A : Type} (predicate : A -> bool) (array : list A) : option A :=
  match array with
  | [] => None
  | x :: rest => if predicate x then Some x else find predicate rest
  end.

End JS.

(* ================================================================== *)
(** ** Express responses *)

Module Express.

Import JS.

(** What a handler has done to [res]: the status code set so far and the
    body sent, if any. *)
Record Response : Type := mkResponse {
  statusCode : Z;
  body : option value
}.

(** The response object a handler receives. *)
Definition fresh : Response := {| statusCode := 200; body := None |}.

(** [res.status(code)] *)
Definition status (code : Z) (res : Response) : Response :=
  {| statusCode := code; body := body res |}.

(** [res.json(v)] *)
Definition json (v : value) (res : Response) : Response :=
  {| statusCode := statusCode res; body := Some v |}.

End Express.

(* ================================================================== *)
(** ** routes/courses.js *)

Module CoursesRouter.

Import JS Express.

(** The module-level state: the array bound to [courses] when the module
    is loaded.  Every element is a JSON object. *)
Record Store : Type := mkStore {
  courses : list object
}.

(** Handlers run against the module state. *)
Definition M (A : Type) : Type := Store -> A * Store.

Definition ret {A : Type} (a : A) : M A := fun st => (a, st).

Definition bind {A B : Type} (m : M A) (f : A -> M B) : M B :=
  fun st => let '(a, st') := m st in f a st'.

Notation "x <- m ;; k" := (bind m (fun x => k))
  (at level 61, m at next level, right associativity).

Definition read_courses : M (list object) := fun st => (courses st, st).

(** The body of the 404 answer: [{ error: 'Course not found' }]. *)
Definition not_found_body : value :=
  VObject [("error", VString "Course not found")].

(** [router.get('/', ...)] *)
Definition get_root (res : Response) : M Response :=
  cs <- read_courses ;;
  ret (json (VArray (map VObject cs)) res).

(** [router.get('/:id', ...)]; [id] is [req.params.id]. *)
Definition get_by_id (id : jsstring) (res : Response) : M Response :=
  cs <- read_courses ;;
  let course :=
    find (fun c => strict_equals_number (Get c "id") (parseInt id)) cs in
  match course with
  | Some c => ret (json (VObject c) res)
  | None => ret (json not_found_body (status 404 res))
  end.

(** A GET request as the router sees it. *)
Inductive request : Type :=
| GetRoot
| GetId (id : jsstring).

Definition coursesRouter (req : request) : M Response :=
  match req with
  | GetRoot => get_root fresh
  | GetId id => get_by_id id fresh
  end.

(** A sequence of requests served one after the other. *)
Fixpoint serve (reqs : list request) : M (list Response) :=
  match reqs with
  | [] => ret []
  | req :: rest =>
      r <- coursesRouter req ;;
      rs <- serve rest ;;
      ret (r :: rs)
  end.

(** The two outcomes of [get_by_id]. *)
Definition found (c : object) : Response :=
  {| statusCode := 200; body := Some (VObject c) |}.

Definition not_found : Response :=
  {| statusCode := 404; body := Some not_found_body |}.

End CoursesRouter.

Import JS Express CoursesRouter.

(* ================================================================== *)
(** ** Vocabulary of the properties *)

(** A decimal digit, [0] to [9]. *)
Definition is_decimal_digit (c : code_unit) : bool :=
  ((48 <=? c) && (c <=? 57))%N.

(** The string starts with [0x] or [0X]. *)
Definition hex_prefix (s : jsstring) : bool :=
  match s with
  | c0 :: c1 :: _ => ((c0 =? 48) && ((c1 =? 120) || (c1 =? 88)))%N
  | _ => false
  end.

(** A malformed identifier: after optional white space and an optional
    sign there is no decimal digit. *)
Definition non_numeric (s : jsstring) : bool :=
  let t := trim_start s in
  let t := match t with
           | c :: t' => if ((c =? 45) || (c =? 43))%N then t' else t
           | [] => []
           end in
  match t with
  | c :: _ => negb (is_decimal_digit c)
  | [] => true
  end.

(** The [id] of a record, and the test the scan applies to it. *)
Definition id_of (c : object) : value := Get c "id".

Definition matches (n : number) (c : object) : bool :=
  strict_equals_number (id_of c) n.

(** No record of the collection has the identifier [n]. *)
Definition absent (n : number) (cs : list object) : Prop :=
  forall c, In c cs -> matches n c = false.

(** The uniqueness invariant of the data model. *)
Definition unique_ids (cs : list object) : Prop :=
  NoDup (map id_of cs).

(** What may follow the digits: nothing, or a code unit that is not a
    decimal digit. *)
Definition stops (rest : jsstring) : bool :=
  match rest with
  | [] => true
  | c :: _ => negb (is_decimal_digit c)
  end.

(** The decimal value of a string of decimal digits. *)
Definition decimal_value (ds : jsstring) : Z :=
  math_int 10 (map (fun c => Z.of_N c - 48) ds).

(** The dataset of the concrete scenario. *)
Definition intro_to_cloud : object :=
  [("id", VNumber (Finite 1)); ("title", VString "Intro to Cloud")].

Definition terraform_basics : object :=
  [("id", VNumber (Finite 2)); ("title", VString "Terraform Basics")].

Definition scenario : Store := mkStore [intro_to_cloud; terraform_basics].

(** A collection whose only record has id 10. *)
Definition kubernetes : object :=
  [("id", VNumber (Finite 10)); ("title", VString "Kubernetes")].

Definition hex_store : Store := mkStore [kubernetes].

(** A collection that breaks the uniqueness of ids: two records with id 2. *)
Definition terraform_advanced : object :=
  [("id", VNumber (Finite 2)); ("title", VString "Terraform Advanced")].

Definition duplicated : Store :=
  mkStore [intro_to_cloud; terraform_basics; terraform_advanced].

(** The value of a hexadecimal digit ([0] for any other code unit). *)
Definition hex_digit_of (c : code_unit) : Z :=
  match digit_value c with
  | Some d => d
  | None => 0
  end.

(** The value of a string of hexadecimal digits. *)
Definition hex_value (hs : jsstring) : Z :=
  math_int 16 (map hex_digit_of hs).

(** What may follow hexadecimal digits: nothing, or a code unit that is
    not a hexadecimal digit. *)
Definition stops_hex (rest : jsstring) : bool :=
  match rest with
  | [] => true
  | c :: _ => negb (is_radix_digit 16 c)
  end.

(** The string does not start with white space or a sign. *)
Definition starts_plain (s : jsstring) : bool :=
  match s with
  | [] => true
  | c :: _ => negb (is_white_space c) && negb ((c =? 45) || (c =? 43))%N
  end.

(** A record whose [id] is the string ["2"], not the number 2. *)
Definition string_id_course : object :=
  [("id", VString "2"); ("title", VString "Docker Basics")].

Definition mixed : Store := mkStore [intro_to_cloud; string_id_course].

(** The scenario's records in the other order. *)
Definition reordered : Store := mkStore [terraform_basics; intro_to_cloud].

(** A collection whose only record has id 31. *)
Definition monitoring : object :=
  [("id", VNumber (Finite 31)); ("title", VString "Monitoring")].

Definition hex_store_31 : Store := mkStore [monitoring].

(** Settle the comparisons on code units one at a time. *)
Ltac cmp_cases :=
  repeat match goal with
  | |- context [(?a <=? ?b)%N] => destruct (N.leb_spec a b); try lia
  | |- context [(?a =? ?b)%N] => destruct (N.eqb_spec a b); try lia
  | |- context [(?a <? ?b)%Z] => destruct (Z.ltb_spec a b); try lia
  end;
  simpl; try reflexivity; try discriminate; try lia.

(* ================================================================== *)
(** ** The scan *)

Section Find.

Context {A : Type} (p : A -> bool).

Lemma find_none (l : list A) :
  (forall x, In x l -> p x = false) -> find p l = None.
Proof.
  induction l as [|x l IH]; intros H; simpl.
  - reflexivity.
  - rewrite (H x (or_introl eq_refl)). apply IH.
    intros y Hy. apply H. now right.
Qed.

Lemma find_first (pre post : list A) (x : A) :
  (forall y, In y pre -> p y = false) -> p x = true ->
  find p (pre ++ x :: post) = Some x.
Proof.
  induction pre as [|y pre IH]; intros Hpre Hx; simpl.
  - now rewrite Hx.
  - rewrite (Hpre y (or_introl eq_refl)). apply IH; [|exact Hx].
    intros z Hz. apply Hpre. now right.
Qed.

Lemma find_some_inv (l : list A) (x : A) :
  find p l = Some x -> In x l /\ p x = true.
Proof.
  induction l as [|y l IH]; simpl; [discriminate|].
  destruct (p y) eqn:E.
  - intros [= ->]. auto.
  - intros H. destruct (IH H). auto.
Qed.

Lemma find_hit (l : list A) (x : A) :
  In x l -> p x = true -> exists y, find p l = Some y.
Proof.
  induction l as [|z l IH]; simpl; [contradiction|].
  intros [-> | Hin] Hx.
  - rewrite Hx. eauto.
  - destruct (p z); eauto.
Qed.

End Find.

(** Handlers answer on the store they were given and hand it back. *)
Lemma get_by_id_run (id : jsstring) (res : Response) (st : Store) :
  get_by_id id res st =
    (match find (matches (parseInt id)) (courses st) with
     | Some c => json (VObject c) res
     | None => json not_found_body (status 404 res)
     end, st).
Proof.
  unfold get_by_id, bind, read_courses, ret, matches, id_of.
  destruct (find _ (courses st)); reflexivity.
Qed.

Lemma get_root_run (res : Response) (st : Store) :
  get_root res st = (json (VArray (map VObject (courses st))) res, st).
Proof. reflexivity. Qed.

Lemma router_store (req : request) (st : Store) :
  snd (coursesRouter req st) = st.
Proof.
  destruct req as [|id]; simpl.
  - reflexivity.
  - now rewrite get_by_id_run.
Qed.

Lemma serve_store (reqs : list request) (st : Store) :
  snd (serve reqs st) = st.
Proof.
  induction reqs as [|req reqs IH]; simpl.
  - reflexivity.
  - unfold bind.
    pose proof (router_store req st) as Hr.
    destruct (coursesRouter req st) as [r st1]. simpl in Hr. subst st1.
    destruct (serve reqs st) as [rs st2]. simpl in IH. now subst st2.
Qed.

(* ================================================================== *)
(** ** The lenient parse *)

Lemma decimal_digit_range (c : code_unit) :
  is_decimal_digit c = true <-> (48 <= c <= 57)%N.
Proof.
  unfold is_decimal_digit. rewrite andb_true_iff, !N.leb_le. tauto.
Qed.

Lemma digit_not_space (c : code_unit) :
  is_decimal_digit c = true -> is_white_space c = false.
Proof.
  rewrite decimal_digit_range. intros H. unfold is_white_space. cmp_cases.
Qed.

Lemma digit_value_decimal (c : code_unit) :
  is_decimal_digit c = true -> digit_value c = Some (Z.of_N c - 48).
Proof.
  rewrite decimal_digit_range. intros H. unfold digit_value. cmp_cases.
Qed.

Lemma non_digit_stops (c : code_unit) :
  is_decimal_digit c = false -> is_radix_digit 10 c = false.
Proof.
  unfold is_decimal_digit, is_radix_digit, digit_value. intros H.
  revert H. cmp_cases.
Qed.

Lemma take_digits_decimal (ds rest : jsstring) :
  forallb is_decimal_digit ds = true -> stops rest = true ->
  take_digits 10 (ds ++ rest) = map (fun c => Z.of_N c - 48) ds.
Proof.
  induction ds as [|d ds IH]; simpl; intros Hds Hrest.
  - destruct rest as [|c rest]; simpl; [reflexivity|].
    simpl in Hrest. apply negb_true_iff in Hrest.
    apply non_digit_stops in Hrest. unfold is_radix_digit in Hrest.
    destruct (digit_value c); [now rewrite Hrest | reflexivity].
  - apply andb_true_iff in Hds as [Hd Hds].
    rewrite (digit_value_decimal d Hd).
    apply decimal_digit_range in Hd.
    destruct (Z.ltb_spec (Z.of_N d - 48) 10); [|lia].
    now rewrite IH.
Qed.

Lemma no_hex_radix (ds rest : jsstring) :
  forallb is_decimal_digit ds = true -> hex_prefix (ds ++ rest) = false ->
  match ds ++ rest with
  | c0 :: c1 :: t =>
      if ((c0 =? 48) && ((c1 =? 120) || (c1 =? 88)))%N
      then (16, t) else (10, ds ++ rest)
  | _ => (10, ds ++ rest)
  end = (10, ds ++ rest).
Proof.
  intros _ H. unfold hex_prefix in H.
  destruct (ds ++ rest) as [|c0 [|c1 t]]; try reflexivity.
  now rewrite H.
Qed.

(** A string of decimal digits, whatever follows it, parses to the value
    of the digits, unless it starts with [0x] or [0X]. *)
Lemma parseInt_decimal (ds rest : jsstring) :
  ds <> [] -> forallb is_decimal_digit ds = true -> stops rest = true ->
  hex_prefix (ds ++ rest) = false ->
  parseInt (ds ++ rest) = number_value (decimal_value ds).
Proof.
  intros Hne Hds Hrest Hhex.
  pose proof (take_digits_decimal ds rest Hds Hrest) as Htake.
  pose proof (no_hex_radix ds rest Hds Hhex) as Hradix.
  destruct ds as [|d ds]; [contradiction|].
  pose proof Hds as Hd. simpl in Hd. apply andb_true_iff in Hd as [Hd _].
  unfold parseInt.
  change ((d :: ds) ++ rest) with (d :: ds ++ rest) in *.
  simpl trim_start. rewrite (digit_not_space d Hd).
  apply decimal_digit_range in Hd.
  destruct (N.eqb_spec d 45); [lia|].
  destruct (N.eqb_spec d 43); [lia|].
  rewrite Hradix, Htake.
  unfold decimal_value. simpl map. cbv iota.
  now rewrite Z.mul_1_l.
Qed.

(** The same behind a minus sign. *)
Lemma parseInt_minus_decimal (ds rest : jsstring) :
  ds <> [] -> forallb is_decimal_digit ds = true -> stops rest = true ->
  hex_prefix (ds ++ rest) = false ->
  parseInt (45%N :: ds ++ rest) = number_value (- decimal_value ds).
Proof.
  intros Hne Hds Hrest Hhex.
  pose proof (take_digits_decimal ds rest Hds Hrest) as Htake.
  pose proof (no_hex_radix ds rest Hds Hhex) as Hradix.
  unfold parseInt. simpl trim_start.
  change (is_white_space 45%N) with false. cbv iota.
  change (45 =? 45)%N with true. cbv iota.
  rewrite Hradix, Htake.
  destruct ds as [|d ds]; [contradiction|].
  unfold decimal_value. simpl map. cbv iota.
  f_equal; lia.
Qed.

(** Digits only: no [0x] prefix. *)
Lemma digits_no_hex (ds : jsstring) :
  forallb is_decimal_digit ds = true -> hex_prefix ds = false.
Proof.
  destruct ds as [|c0 [|c1 t]]; simpl; try reflexivity.
  rewrite !andb_true_iff, !decimal_digit_range. intros (_ & H1 & _).
  cmp_cases.
Qed.

Lemma decimal_value_snoc (ds : jsstring) (d : code_unit) :
  decimal_value (ds ++ [d]) = decimal_value ds * 10 + (Z.of_N d - 48).
Proof.
  unfold decimal_value, math_int. now rewrite map_app, fold_left_app.
Qed.

(** The digits written for [n] are decimal digits and denote [n]. *)
Lemma decimal_digits_spec (fuel : nat) :
  forall (n : Z) (acc : jsstring),
    0 <= n < 2 ^ Z.of_nat (S fuel) ->
    exists ds,
      decimal_digits (S fuel) n acc = ds ++ acc /\
      ds <> [] /\
      forallb is_decimal_digit ds = true /\
      decimal_value ds = n.
Proof.
  induction fuel as [|fuel IH]; intros n acc Hn.
  - exists [Z.to_N (48 + n mod 10)].
    assert (n = 0 \/ n = 1) as Hcases by (change (2 ^ Z.of_nat 1) with 2 in Hn; lia).
    destruct Hcases as [-> | ->]; repeat split; discriminate.
  - pose proof (Z.mod_pos_bound n 10 ltac:(lia)) as Hmod.
    pose proof (Z.div_mod n 10 ltac:(lia)) as Hdiv.
    assert (Hdigit : is_decimal_digit (Z.to_N (48 + n mod 10)) = true)
      by (apply decimal_digit_range; lia).
    assert (Hval : Z.of_N (Z.to_N (48 + n mod 10)) - 48 = n mod 10) by lia.
    change (decimal_digits (S (S fuel)) n acc) with
      (if n / 10 =? 0 then Z.to_N (48 + n mod 10) :: acc
       else decimal_digits (S fuel) (n / 10) (Z.to_N (48 + n mod 10) :: acc)).
    destruct (Z.eqb_spec (n / 10) 0) as [Hz | Hnz].
    + exists [Z.to_N (48 + n mod 10)]. repeat split.
      * discriminate.
      * cbn [forallb]. now rewrite Hdigit.
      * unfold decimal_value, math_int. cbn [map fold_left]. lia.
    + assert (Hsmall : 0 <= n / 10 < 2 ^ Z.of_nat (S fuel)).
      { split; [apply Z.div_pos; lia|].
        apply Z.div_lt_upper_bound; [lia|].
        rewrite Nat2Z.inj_succ, Z.pow_succ_r in Hn by lia.
        assert (0 < 2 ^ Z.of_nat (S fuel)) by (apply Z.pow_pos_nonneg; lia).
        lia. }
      destruct (IH (n / 10) (Z.to_N (48 + n mod 10) :: acc) Hsmall)
        as (ds & Heq & Hne & Hall & Hv).
      exists (ds ++ [Z.to_N (48 + n mod 10)]). repeat split.
      * rewrite Heq, <- app_assoc. reflexivity.
      * destruct ds; discriminate.
      * rewrite forallb_app, Hall. cbn [forallb]. now rewrite Hdigit.
      * rewrite decimal_value_snoc, Hv, Hval. lia.
Qed.

(** Reading back the decimal spelling gives the Number value of the
    integer. *)
Lemma parseInt_integer_toString (z : Z) :
  parseInt (integer_toString z) = number_value z.
Proof.
  unfold integer_toString.
  assert (Hm : 0 <= Z.abs z < 2 ^ Z.of_nat (S (Z.to_nat (Z.log2 (Z.abs z))))).
  { split; [lia|].
    rewrite Nat2Z.inj_succ, Z2Nat.id by apply Z.log2_nonneg.
    destruct (Z.eq_dec (Z.abs z) 0) as [-> | Hpos]; [reflexivity|].
    apply Z.log2_spec. lia. }
  destruct (decimal_digits_spec _ (Z.abs z) [] Hm) as (ds & Heq & Hne & Hall & Hv).
  rewrite Heq, app_nil_r.
  pose proof (digits_no_hex ds Hall) as Hhex.
  destruct (Z.ltb_spec z 0) as [Hneg | Hpos].
  - pose proof (parseInt_minus_decimal ds [] Hne Hall eq_refl) as H.
    rewrite app_nil_r in H. rewrite (H Hhex), Hv. f_equal; lia.
  - pose proof (parseInt_decimal ds [] Hne Hall eq_refl) as H.
    rewrite app_nil_r in H. rewrite (H Hhex), Hv. f_equal; lia.
Qed.

Lemma parseInt_non_numeric (s : jsstring) :
  non_numeric s = true -> parseInt s = NaN.
Proof.
  unfold non_numeric, parseInt.
  destruct (trim_start s) as [|c t]; [reflexivity|].
  assert (Hstop : forall c' t',
            negb (is_decimal_digit c') = true ->
            forall sign : Z,
              (let '(R, s0) :=
                 match c' :: t' with
                 | c0 :: c1 :: u =>
                     if ((c0 =? 48) && ((c1 =? 120) || (c1 =? 88)))%N
                     then (16, u) else (10, c' :: t')
                 | _ => (10, c' :: t')
                 end in
               match take_digits R s0 with
               | [] => NaN
               | ds => number_value (sign * math_int R ds)
               end) = NaN).
  { intros c' t' Hc sign. apply negb_true_iff in Hc.
    assert (Hzero : (c' =? 48)%N = false).
    { destruct (N.eqb_spec c' 48) as [-> |]; [discriminate | reflexivity]. }
    apply non_digit_stops in Hc. unfold is_radix_digit in Hc.
    destruct t' as [|c1 u]; rewrite ?Hzero; cbn [andb take_digits];
      destruct (digit_value c'); rewrite ?Hc; reflexivity. }
  destruct (N.eqb_spec c 45) as [-> | Hminus].
  - cbn [orb]. destruct t as [|c' t']; [reflexivity|]. intros H. now apply Hstop.
  - destruct (N.eqb_spec c 43) as [-> | Hplus]; cbn [orb].
    + destruct t as [|c' t']; [reflexivity|]. intros H. now apply Hstop.
    + intros H. now apply Hstop.
Qed.

(* ================================================================== *)
(** ** The lookup *)

Lemma matches_NaN (c : object) : matches NaN c = false.
Proof.
  unfold matches, strict_equals_number.
  destruct (id_of c) as [| | |[| |]| | |]; reflexivity.
Qed.

Lemma matches_finite (z : Z) (c : object) :
  matches (Finite z) c = true <-> id_of c = VNumber (Finite z).
Proof.
  unfold matches, strict_equals_number. split.
  - destruct (id_of c) as [| | |[| |z']| | |]; simpl; try discriminate.
    intros H. apply Z.eqb_eq in H. now subst.
  - intros ->. simpl. apply Z.eqb_refl.
Qed.

Lemma unique_ids_inj (cs : list object) (x y : object) :
  unique_ids cs -> In x cs -> In y cs -> id_of x = id_of y -> x = y.
Proof.
  unfold unique_ids. induction cs as [|c cs IH]; simpl; [contradiction|].
  intros Hnd Hx Hy Heq. inversion Hnd as [|? ? Hnotin Hnd']; subst.
  destruct Hx as [-> | Hx], Hy as [-> | Hy].
  - reflexivity.
  - exfalso. apply Hnotin. rewrite Heq. now apply in_map.
  - exfalso. apply Hnotin. rewrite <- Heq. now apply in_map.
  - now apply IH.
Qed.

Lemma get_by_id_found (st : Store) (s : jsstring) (c : object) :
  find (matches (parseInt s)) (courses st) = Some c ->
  coursesRouter (GetId s) st = (found c, st).
Proof.
  intros H. simpl. now rewrite get_by_id_run, H.
Qed.

Lemma get_by_id_not_found (st : Store) (s : jsstring) :
  absent (parseInt s) (courses st) ->
  coursesRouter (GetId s) st = (not_found, st).
Proof.
  intros H. simpl. now rewrite get_by_id_run, (find_none _ _ H).
Qed.

(* ================================================================== *)
(** ** Properties of the catalog service *)

(** C1. In a collection with unique ids, the request for the id of a
    stored record answers 200 with exactly that record.  The id is a
    Number holding an integer [z], written in the path with its exact
    decimal digits ([integer_toString]). *)
Theorem get_by_id_stored (st : Store) (r : object) (z : Z) :
  unique_ids (courses st) ->
  In r (courses st) ->
  id_of r = VNumber (Finite z) ->
  number_value z = Finite z ->
  Z.abs z < 10 ^ 21 ->
  coursesRouter (GetId (integer_toString z)) st = (found r, st).
Proof.
  intros Huniq Hin Hid Hrepr _.
  apply get_by_id_found.
  rewrite parseInt_integer_toString, Hrepr.
  destruct (find_hit (matches (Finite z)) (courses st) r Hin) as [y Hy].
  { now apply matches_finite. }
  rewrite Hy. f_equal.
  apply find_some_inv in Hy as [Hyin Hym].
  apply matches_finite in Hym.
  apply (unique_ids_inj (courses st)); auto. congruence.
Qed.

Lemma scenario_unique_ids : unique_ids (courses scenario).
Proof.
  unfold unique_ids. simpl.
  repeat constructor; simpl; intuition discriminate.
Defined.

Lemma get_by_id_stored_witness :
  coursesRouter (GetId (code_units "2")) scenario
  = (found terraform_basics, scenario).
Proof.
  apply (get_by_id_stored scenario terraform_basics 2).
  - exact scenario_unique_ids.
  - simpl. right. left. reflexivity.
  - reflexivity.
  - reflexivity.
  - reflexivity.
Defined.

(** C2. When the parsed identifier equals the id of no record, the answer
    is status 404 with the body [{ error: 'Course not found' }], and the
    body is not a record. *)
Theorem get_by_id_absent (st : Store) (s : jsstring) :
  absent (parseInt s) (courses st) ->
  coursesRouter (GetId s) st = (not_found, st) /\
  statusCode not_found = 404 /\
  body not_found = Some (VObject [("error", VString "Course not found")]).
Proof.
  intros H. split; [|split]; try reflexivity.
  now apply get_by_id_not_found.
Qed.

Lemma get_by_id_absent_witness :
  coursesRouter (GetId (code_units "99")) scenario = (not_found, scenario) /\
  statusCode not_found = 404 /\
  body not_found = Some (VObject [("error", VString "Course not found")]).
Proof.
  apply (get_by_id_absent scenario (code_units "99")).
  intros c Hc. simpl in Hc.
  destruct Hc as [<- | [<- | []]]; reflexivity.
Defined.

(** C3. A malformed identifier (no decimal digit after optional white
    space and sign) parses to NaN, which matches no record: the handler
    returns, and what it returns is the 404 answer. *)
Theorem get_by_id_malformed (st : Store) (s : jsstring) :
  non_numeric s = true ->
  parseInt s = NaN /\
  absent (parseInt s) (courses st) /\
  coursesRouter (GetId s) st = (not_found, st).
Proof.
  intros H. pose proof (parseInt_non_numeric s H) as Hnan.
  assert (Habs : absent (parseInt s) (courses st)).
  { rewrite Hnan. intros c _. apply matches_NaN. }
  auto using get_by_id_not_found.
Qed.

Lemma get_by_id_malformed_witness :
  parseInt (code_units "abc") = NaN /\
  absent (parseInt (code_units "abc")) (courses scenario) /\
  coursesRouter (GetId (code_units "abc")) scenario = (not_found, scenario).
Proof.
  apply (get_by_id_malformed scenario (code_units "abc")).
  reflexivity.
Defined.

(** C4. The list route answers with the records of the collection, each
    once: as many elements as the dataset has, the i-th element being the
    i-th record. *)
Theorem get_root_all_in_order (st : Store) :
  exists elements,
    body (fst (coursesRouter GetRoot st)) = Some (VArray elements) /\
    elements = map VObject (courses st) /\
    List.length elements = List.length (courses st) /\
    forall i, nth_error elements i = option_map VObject (nth_error (courses st) i).
Proof.
  exists (map VObject (courses st)). repeat split.
  - apply length_map.
  - intros i. apply nth_error_map.
Qed.

(** C7. The list route has one outcome whatever the collection: status
    200 with the array of records, the store handed back as it was. *)
Theorem get_root_always_succeeds (st : Store) :
  coursesRouter GetRoot st
  = ({| statusCode := 200; body := Some (VArray (map VObject (courses st))) |},
     st).
Proof. reflexivity. Qed.

(** C5. The answer to a request does not depend on the requests served
    before it: after any sequence of calls the same request gets the same
    answer, and a request repeated [n] times gets [n] identical answers. *)
Theorem router_idempotent (st : Store) (reqs : list request) (req : request) (n : nat) :
  fst (coursesRouter req (snd (serve reqs st))) = fst (coursesRouter req st) /\
  fst (serve (repeat req n) st) = repeat (fst (coursesRouter req st)) n.
Proof.
  split.
  - now rewrite serve_store.
  - induction n as [|n IH]; simpl; [reflexivity|].
    unfold bind.
    pose proof (router_store req st) as Hr.
    destruct (coursesRouter req st) as [r st1]. simpl in Hr. subst st1.
    destruct (serve (repeat req n) st) as [rs st2]. simpl in IH. simpl.
    now rewrite IH.
Qed.

(** C8. Neither route writes to the collection: after any sequence of
    requests the collection is the one that was loaded. *)
Theorem collection_never_mutated (st : Store) (reqs : list request) :
  courses (snd (serve reqs st)) = courses st /\
  courses (snd (coursesRouter GetRoot st)) = courses st /\
  forall id, courses (snd (coursesRouter (GetId id) st)) = courses st.
Proof.
  split; [|split].
  - now rewrite serve_store.
  - reflexivity.
  - intros id. now rewrite router_store.
Qed.

(** C6. A malformed identifier and an identifier that parses but matches
    no record get the same answer, the 404 one. *)
Theorem malformed_and_absent_alike (st : Store) (s1 s2 : jsstring) :
  non_numeric s1 = true ->
  absent (parseInt s2) (courses st) ->
  coursesRouter (GetId s1) st = coursesRouter (GetId s2) st /\
  coursesRouter (GetId s2) st = (not_found, st).
Proof.
  intros H1 H2.
  rewrite (get_by_id_not_found st s2 H2). split; [|reflexivity].
  apply get_by_id_not_found.
  rewrite (parseInt_non_numeric s1 H1). intros c _. apply matches_NaN.
Qed.

Lemma malformed_and_absent_alike_witness :
  coursesRouter (GetId (code_units "abc")) scenario
  = coursesRouter (GetId (code_units "99")) scenario /\
  coursesRouter (GetId (code_units "99")) scenario = (not_found, scenario).
Proof.
  apply (malformed_and_absent_alike scenario (code_units "abc") (code_units "99")).
  - reflexivity.
  - intros c Hc. simpl in Hc.
    destruct Hc as [<- | [<- | []]]; reflexivity.
Defined.

(** C9, as stated, fails on ["0xA"]: the string is the decimal digit [0]
    followed by the non-numeric characters [xA], yet [parseInt] reads it as
    hexadecimal 10, so the request finds the record with id 10 while the
    request for the prefix ["0"] finds nothing. *)
Lemma numeric_prefix_counterexample :
  coursesRouter (GetId (code_units "0xA")) hex_store = (found kubernetes, hex_store) /\
  coursesRouter (GetId (code_units "0")) hex_store = (not_found, hex_store) /\
  ~ (forall (st : Store) (ds rest : jsstring),
       ds <> [] ->
       forallb is_decimal_digit ds = true ->
       rest <> [] ->
       forallb (fun c => negb (is_decimal_digit c)) rest = true ->
       coursesRouter (GetId (ds ++ rest)) st = coursesRouter (GetId ds) st).
Proof.
  split; [reflexivity|]. split; [reflexivity|].
  intros H.
  specialize (H hex_store (code_units "0") (code_units "xA")).
  assert (Heq : coursesRouter (GetId (code_units "0" ++ code_units "xA")) hex_store
                = coursesRouter (GetId (code_units "0")) hex_store).
  { apply H; [discriminate | reflexivity | discriminate | reflexivity]. }
  vm_compute in Heq. discriminate Heq.
Qed.

(** A record whose id is the Number value of an integer matches it: that
    value is never NaN. *)
Lemma matches_number_value (x : Z) (r : object) :
  id_of r = VNumber (number_value x) -> matches (number_value x) r = true.
Proof.
  intros Hid. unfold matches, strict_equals_number. rewrite Hid.
  unfold number_value.
  destruct (2 ^ 1024 <=? round_binary64 (Z.abs x)); simpl.
  - apply Bool.eqb_reflx.
  - apply Z.eqb_refl.
Qed.

(** C9, amended.  A string of decimal digits followed by a character that
    is not a decimal digit, and not starting with [0x] or [0X], parses to
    the value of the digits, and the request is answered as the request
    for the digits alone: when a record has that value as its id the
    answer is 200 with the first such record (that very record when ids
    are unique), not the 404; when no record has it the answer is the
    404. *)
Theorem numeric_prefix_accepted
    (st : Store) (ds : jsstring) (c : code_unit) (rest : jsstring) :
  ds <> [] ->
  forallb is_decimal_digit ds = true ->
  is_decimal_digit c = false ->
  hex_prefix (ds ++ c :: rest) = false ->
  parseInt (ds ++ c :: rest) = number_value (decimal_value ds) /\
  coursesRouter (GetId (ds ++ c :: rest)) st = coursesRouter (GetId ds) st /\
  (forall r,
     In r (courses st) ->
     id_of r = VNumber (number_value (decimal_value ds)) ->
     exists r',
       coursesRouter (GetId (ds ++ c :: rest)) st = (found r', st) /\
       In r' (courses st) /\
       id_of r' = id_of r /\
       (unique_ids (courses st) -> r' = r)) /\
  (absent (number_value (decimal_value ds)) (courses st) ->
   coursesRouter (GetId (ds ++ c :: rest)) st = (not_found, st)).
Proof.
  intros Hne Hds Hc Hhex.
  assert (Hlong : parseInt (ds ++ c :: rest) = number_value (decimal_value ds)).
  { apply parseInt_decimal; auto. simpl. now rewrite Hc. }
  assert (Hshort : parseInt ds = number_value (decimal_value ds)).
  { rewrite <- (app_nil_r ds) at 1. apply parseInt_decimal; auto.
    rewrite app_nil_r. now apply digits_no_hex. }
  split; [exact Hlong|]. split; [|split].
  - simpl. now rewrite !get_by_id_run, Hlong, Hshort.
  - intros r Hin Hid.
    pose proof (matches_number_value _ r Hid) as Hm.
    destruct (find_hit _ (courses st) r Hin Hm) as [r' Hr'].
    destruct (find_some_inv _ _ _ Hr') as [Hin' Hm'].
    assert (Hid' : id_of r' = id_of r).
    { unfold matches, strict_equals_number in Hm'.
      destruct (id_of r') as [| | |n| | |]; try discriminate.
      rewrite Hid. f_equal.
      destruct n as [|a|a], (number_value (decimal_value ds)) as [|b|b];
        simpl in Hm'; try discriminate.
      - apply Bool.eqb_prop in Hm'. now subst.
      - apply Z.eqb_eq in Hm'. now subst. }
    exists r'. repeat split; auto.
    + apply get_by_id_found. now rewrite Hlong.
    + intros Huniq. now apply (unique_ids_inj (courses st)).
  - intros Habs. apply get_by_id_not_found. now rewrite Hlong.
Qed.

Lemma numeric_prefix_accepted_witness :
  parseInt (code_units "2abc") = number_value (decimal_value (code_units "2")) /\
  coursesRouter (GetId (code_units "2abc")) scenario
  = coursesRouter (GetId (code_units "2")) scenario /\
  (forall r,
     In r (courses scenario) ->
     id_of r = VNumber (number_value (decimal_value (code_units "2"))) ->
     exists r',
       coursesRouter (GetId (code_units "2abc")) scenario = (found r', scenario) /\
       In r' (courses scenario) /\
       id_of r' = id_of r /\
       (unique_ids (courses scenario) -> r' = r)) /\
  (absent (number_value (decimal_value (code_units "2"))) (courses scenario) ->
   coursesRouter (GetId (code_units "2abc")) scenario = (not_found, scenario)).
Proof.
  apply (numeric_prefix_accepted scenario (code_units "2") 97%N (code_units "bc")).
  - discriminate.
  - reflexivity.
  - reflexivity.
  - reflexivity.
Defined.

(** The request for ["2abc"] in the scenario: the parse accepts the prefix
    and the answer is the record with id 2. *)
Example numeric_prefix_scenario :
  coursesRouter (GetId (code_units "2abc")) scenario
  = (found terraform_basics, scenario).
Proof. reflexivity. Qed.

(** C10. Whatever follows it in the collection, the first record in
    dataset order whose id equals the parsed identifier is the one
    returned, records with the same id after it included. *)
Theorem get_by_id_first_match
    (st : Store) (s : jsstring) (pre post : list object) (r : object) :
  courses st = pre ++ r :: post ->
  absent (parseInt s) pre ->
  matches (parseInt s) r = true ->
  coursesRouter (GetId s) st = (found r, st).
Proof.
  intros Hsplit Hpre Hr.
  apply get_by_id_found. rewrite Hsplit.
  now apply find_first.
Qed.

Lemma get_by_id_first_match_witness :
  coursesRouter (GetId (code_units "2")) duplicated
  = (found terraform_basics, duplicated).
Proof.
  apply (get_by_id_first_match duplicated (code_units "2")
           [intro_to_cloud] [terraform_advanced] terraform_basics).
  - reflexivity.
  - intros c Hc. simpl in Hc. destruct Hc as [<- | []]. reflexivity.
  - reflexivity.
Defined.

(* ================================================================== *)
(** ** The concrete scenario *)

Example scenario_list :
  fst (coursesRouter GetRoot scenario)
  = {| statusCode := 200;
       body := Some (VArray [VObject intro_to_cloud; VObject terraform_basics]) |}.
Proof. reflexivity. Qed.

Example scenario_get_2 :
  fst (coursesRouter (GetId (code_units "2")) scenario) = found terraform_basics.
Proof. reflexivity. Qed.

Example scenario_get_99 :
  fst (coursesRouter (GetId (code_units "99")) scenario) = not_found.
Proof. reflexivity. Qed.

Example scenario_get_abc :
  fst (coursesRouter (GetId (code_units "abc")) scenario) = not_found.
Proof. reflexivity. Qed.

Example parseInt_samples :
  parseInt (code_units "2abc") = Finite 2 /\
  parseInt (code_units " +2.5") = Finite 2 /\
  parseInt (code_units "-7") = Finite (-7) /\
  parseInt (code_units "0x1F") = Finite 31 /\
  parseInt (code_units "0x") = NaN /\
  parseInt (code_units "") = NaN /\
  parseInt (code_units "9007199254740993") = Finite 9007199254740992.
Proof. repeat split. Qed.

(* ================================================================== *)
(** ** Further properties of the scan and of the lookup *)

Section FindMore.

Context {A : Type} (p : A -> bool).

Lemma find_split (l : list A) (x : A) :
  find p l = Some x ->
  exists pre post,
    l = pre ++ x :: post /\ (forall y, In y pre -> p y = false) /\ p x = true.
Proof.
  induction l as [|y l IH]; simpl; [discriminate|].
  destruct (p y) eqn:E.
  - intros [= ->]. exists [], l. repeat split; auto. intros z [].
  - intros H. destruct (IH H) as (pre & post & -> & Hpre & Hx).
    exists (y :: pre), post. repeat split; auto.
    intros z [<- | Hz]; auto.
Qed.

Lemma find_app (l1 l2 : list A) :
  find p (l1 ++ l2) =
    match find p l1 with
    | Some x => Some x
    | None => find p l2
    end.
Proof.
  induction l1 as [|y l1 IH]; simpl; [reflexivity|].
  destruct (p y); [reflexivity | exact IH].
Qed.

End FindMore.

Lemma Number_equal_eq (a b : number) :
  Number_equal a b = true -> a = b /\ b <> NaN.
Proof.
  destruct a as [|x|x], b as [|y|y]; simpl; try discriminate.
  - intros H. apply Bool.eqb_prop in H. subst. split; [reflexivity | discriminate].
  - intros H. apply Z.eqb_eq in H. subst. split; [reflexivity | discriminate].
Qed.

Lemma matches_id (n : number) (c : object) :
  matches n c = true -> id_of c = VNumber n /\ n <> NaN.
Proof.
  unfold matches, strict_equals_number.
  destruct (id_of c) as [| | |m| | |]; try discriminate.
  intros H. apply Number_equal_eq in H as [-> Hn]. auto.
Qed.

Lemma router_found_iff (st : Store) (s : jsstring) (c : object) :
  fst (coursesRouter (GetId s) st) = found c <->
  find (matches (parseInt s)) (courses st) = Some c.
Proof.
  simpl. rewrite get_by_id_run. simpl.
  destruct (find _ (courses st)) as [c'|].
  - split.
    + unfold json, found. simpl. intros [= ->]. reflexivity.
    + intros [= ->]. reflexivity.
  - split; discriminate.
Qed.

Lemma router_not_found_iff (st : Store) (s : jsstring) :
  fst (coursesRouter (GetId s) st) = not_found <->
  find (matches (parseInt s)) (courses st) = None.
Proof.
  simpl. rewrite get_by_id_run. simpl.
  destruct (find _ (courses st)) as [c'|].
  - split; discriminate.
  - split; reflexivity.
Qed.

Lemma find_none_absent (n : number) (cs : list object) :
  find (matches n) cs = None <-> absent n cs.
Proof.
  split.
  - intros H c Hc. destruct (matches n c) eqn:E; [|reflexivity].
    destruct (find_hit (matches n) cs c Hc E) as [y Hy]. congruence.
  - apply find_none.
Qed.

Lemma router_parse (st : Store) (s1 s2 : jsstring) :
  parseInt s1 = parseInt s2 ->
  coursesRouter (GetId s1) st = coursesRouter (GetId s2) st.
Proof.
  intros H. simpl. now rewrite !get_by_id_run, H.
Qed.

(** X1. A 200 answer of the id route carries the first record, in dataset
    order, whose id is a Number strictly equal to the parsed parameter:
    the record is in the collection, no record before it matches, and the
    parameter did not parse to NaN. *)
Theorem get_by_id_returns_first_match (st : Store) (s : jsstring) (r : object) :
  fst (coursesRouter (GetId s) st) = found r ->
  exists pre post,
    courses st = pre ++ r :: post /\
    absent (parseInt s) pre /\
    id_of r = VNumber (parseInt s) /\
    parseInt s <> NaN.
Proof.
  intros H. apply router_found_iff in H.
  destruct (find_split _ _ _ H) as (pre & post & Hsplit & Hpre & Hr).
  apply matches_id in Hr as [Hid Hnan].
  exists pre, post. auto.
Qed.

Lemma get_by_id_returns_first_match_witness :
  exists pre post,
    courses duplicated = pre ++ terraform_basics :: post /\
    absent (parseInt (code_units "2")) pre /\
    id_of terraform_basics = VNumber (parseInt (code_units "2")) /\
    parseInt (code_units "2") <> NaN.
Proof.
  apply (get_by_id_returns_first_match duplicated (code_units "2") terraform_basics).
  reflexivity.
Defined.

(** X2. The id route answers 404 exactly when no record matches the
    parsed parameter; otherwise it answers 200 with a record of the
    collection.  There is no third outcome. *)
Theorem get_by_id_404_iff_absent (st : Store) (s : jsstring) :
  (fst (coursesRouter (GetId s) st) = not_found <->
   absent (parseInt s) (courses st)) /\
  ((exists c, In c (courses st) /\ fst (coursesRouter (GetId s) st) = found c) \/
   fst (coursesRouter (GetId s) st) = not_found).
Proof.
  split.
  - rewrite router_not_found_iff. apply find_none_absent.
  - destruct (find (matches (parseInt s)) (courses st)) as [c|] eqn:E.
    + left. exists c. split.
      * now apply (find_some_inv _ _ _ E).
      * now apply router_found_iff.
    + right. now apply router_not_found_iff.
Qed.

(** X3. Strict equality does not coerce: a record whose [id] is not a
    Number (a string such as ["2"], [null], or no [id] at all) is returned
    by the id route for no parameter whatsoever, although the list route
    sends it. *)
Theorem non_number_id_unreachable (st : Store) (c : object) :
  In c (courses st) ->
  (forall n, id_of c <> VNumber n) ->
  (forall s, fst (coursesRouter (GetId s) st) <> found c) /\
  exists elements,
    body (fst (coursesRouter GetRoot st)) = Some (VArray elements) /\
    In (VObject c) elements.
Proof.
  intros Hin Hid. split.
  - intros s H. apply router_found_iff, find_some_inv in H as [_ Hm].
    apply matches_id in Hm as [Hm _]. exact (Hid _ Hm).
  - exists (map VObject (courses st)). split; [reflexivity|].
    now apply in_map.
Qed.

Lemma non_number_id_unreachable_witness :
  (forall s, fst (coursesRouter (GetId s) mixed) <> found string_id_course) /\
  exists elements,
    body (fst (coursesRouter GetRoot mixed)) = Some (VArray elements) /\
    In (VObject string_id_course) elements.
Proof.
  apply (non_number_id_unreachable mixed string_id_course).
  - simpl. right. left. reflexivity.
  - intros n. discriminate.
Defined.

(** X4. White space in front of the parameter is ignored by the parse:
    the request is answered as the request without it. *)
Theorem leading_white_space_ignored (st : Store) (ws s : jsstring) :
  forallb is_white_space ws = true ->
  coursesRouter (GetId (ws ++ s)) st = coursesRouter (GetId s) st.
Proof.
  intros Hws. apply router_parse. unfold parseInt.
  replace (trim_start (ws ++ s)) with (trim_start s); [reflexivity|].
  induction ws as [|c ws IH]; simpl; [reflexivity|].
  simpl in Hws. apply andb_true_iff in Hws as [Hc Hws].
  rewrite Hc. now apply IH.
Qed.

Lemma leading_white_space_ignored_witness :
  coursesRouter (GetId (code_units "  " ++ code_units "2")) scenario
  = coursesRouter (GetId (code_units "2")) scenario.
Proof.
  apply (leading_white_space_ignored scenario (code_units "  ") (code_units "2")).
  reflexivity.
Defined.

(** X5. A plus sign in front of a parameter that does not itself start
    with white space or a sign is ignored by the parse. *)
Theorem plus_sign_ignored (st : Store) (s : jsstring) :
  starts_plain s = true ->
  coursesRouter (GetId (43%N :: s)) st = coursesRouter (GetId s) st.
Proof.
  intros Hs. apply router_parse. unfold parseInt.
  simpl trim_start. change (is_white_space 43%N) with false. cbv iota.
  change (43 =? 45)%N with false. change (43 =? 43)%N with true. cbv iota.
  destruct s as [|c t]; [reflexivity|].
  simpl in Hs. apply andb_true_iff in Hs as [Hws Hsign].
  apply negb_true_iff in Hws. apply negb_true_iff in Hsign.
  apply orb_false_iff in Hsign as [Hminus Hplus].
  simpl trim_start. rewrite Hws, Hminus, Hplus. reflexivity.
Qed.

Lemma plus_sign_ignored_witness :
  coursesRouter (GetId (code_units "+2")) scenario
  = coursesRouter (GetId (code_units "2")) scenario.
Proof.
  apply (plus_sign_ignored scenario (code_units "2")).
  reflexivity.
Defined.

(* ================================================================== *)
(** ** Hexadecimal parameters and safe integers *)

Lemma take_digits_hex (hs rest : jsstring) :
  forallb (is_radix_digit 16) hs = true -> stops_hex rest = true ->
  take_digits 16 (hs ++ rest) = map hex_digit_of hs.
Proof.
  induction hs as [|h hs IH]; simpl; intros Hhs Hrest.
  - destruct rest as [|c rest]; simpl; [reflexivity|].
    simpl in Hrest. apply negb_true_iff in Hrest.
    unfold is_radix_digit in Hrest.
    destruct (digit_value c); [now rewrite Hrest | reflexivity].
  - apply andb_true_iff in Hhs as [Hh Hhs].
    unfold is_radix_digit in Hh. unfold hex_digit_of at 1.
    destruct (digit_value h) as [d|]; [|discriminate].
    rewrite Hh. now rewrite IH.
Qed.

Lemma parseInt_hex (x : code_unit) (hs rest : jsstring) :
  (x = 120 \/ x = 88)%N ->
  hs <> [] ->
  forallb (is_radix_digit 16) hs = true -> stops_hex rest = true ->
  parseInt (48%N :: x :: hs ++ rest) = number_value (hex_value hs).
Proof.
  intros Hx Hne Hhs Hrest.
  unfold parseInt. simpl trim_start.
  change (is_white_space 48%N) with false. cbv iota.
  change (48 =? 45)%N with false. change (48 =? 43)%N with false. cbv iota.
  assert (Hprefix : ((48 =? 48) && ((x =? 120) || (x =? 88)))%N = true).
  { destruct Hx as [-> | ->]; reflexivity. }
  rewrite Hprefix, (take_digits_hex hs rest Hhs Hrest).
  destruct hs as [|h hs]; [contradiction|].
  unfold hex_value. simpl map. cbv iota.
  now rewrite Z.mul_1_l.
Qed.

Lemma number_value_safe (z : Z) :
  Z.abs z <= 2 ^ 53 -> number_value z = Finite z.
Proof.
  intros Hz.
  assert (Hbig : 2 ^ 53 < 2 ^ 1024) by (apply Z.pow_lt_mono_r; lia).
  destruct (Z.eq_dec (Z.abs z) (2 ^ 53)) as [Heq | Hneq].
  - assert (z = 2 ^ 53 \/ z = - 2 ^ 53) as [-> | ->] by lia; reflexivity.
  - unfold number_value, round_binary64.
    destruct (Z.ltb_spec (Z.abs z) (2 ^ 53)); [|lia].
    destruct (Z.leb_spec (2 ^ 1024) (Z.abs z)); [lia|].
    f_equal. lia.
Qed.

(** X6. A parameter that starts with [0x] or [0X] is read in radix 16:
    followed by hexadecimal digits, it is answered as the decimal
    spelling of the same number, whatever comes after the digits. *)
Theorem hex_parameter_selects_by_value
    (st : Store) (x : code_unit) (hs rest : jsstring) :
  (x = 120 \/ x = 88)%N ->
  hs <> [] ->
  forallb (is_radix_digit 16) hs = true ->
  stops_hex rest = true ->
  parseInt (48%N :: x :: hs ++ rest) = number_value (hex_value hs) /\
  coursesRouter (GetId (48%N :: x :: hs ++ rest)) st
  = coursesRouter (GetId (integer_toString (hex_value hs))) st.
Proof.
  intros Hx Hne Hhs Hrest.
  pose proof (parseInt_hex x hs rest Hx Hne Hhs Hrest) as Hparse.
  split; [exact Hparse|].
  apply router_parse. now rewrite Hparse, parseInt_integer_toString.
Qed.

Lemma hex_parameter_selects_by_value_witness :
  parseInt (code_units "0x1F.5") = number_value (hex_value (code_units "1F")) /\
  coursesRouter (GetId (code_units "0x1F.5")) hex_store_31
  = coursesRouter (GetId (code_units "31")) hex_store_31.
Proof.
  apply (hex_parameter_selects_by_value hex_store_31 120%N
           (code_units "1F") (code_units ".5")).
  - left. reflexivity.
  - discriminate.
  - reflexivity.
  - reflexivity.
Defined.

(** X7. Every integer up to [2^53] in absolute value is a Number exactly,
    and its decimal spelling parses back to it: such an id can always be
    addressed by the string JavaScript prints for it. *)
Theorem safe_integer_round_trip (z : Z) :
  Z.abs z <= 2 ^ 53 ->
  number_value z = Finite z /\
  parseInt (integer_toString z) = Finite z.
Proof.
  intros Hz. pose proof (number_value_safe z Hz) as Hv.
  split; [exact Hv|]. now rewrite parseInt_integer_toString.
Qed.

Lemma safe_integer_round_trip_witness :
  number_value (-1205) = Finite (-1205) /\
  parseInt (integer_toString (-1205)) = Finite (-1205).
Proof.
  apply (safe_integer_round_trip (-1205)).
  vm_compute. discriminate.
Defined.

(* ================================================================== *)
(** ** The collection as a whole *)

Lemma absent_perm (n : number) (cs cs' : list object) :
  Permutation cs cs' -> absent n cs -> absent n cs'.
Proof.
  intros Hp Ha c Hc. apply Ha.
  apply (Permutation_in c (Permutation_sym Hp) Hc).
Qed.

(** X8. Without the uniqueness of ids the request for a listed id still
    succeeds: it answers 200 with a record of the collection that has the
    same id, though not necessarily the record asked about. *)
Theorem listed_id_resolves (st : Store) (r : object) (z : Z) :
  In r (courses st) ->
  id_of r = VNumber (Finite z) ->
  number_value z = Finite z ->
  exists r',
    coursesRouter (GetId (integer_toString z)) st = (found r', st) /\
    In r' (courses st) /\
    id_of r' = id_of r.
Proof.
  intros Hin Hid Hrepr.
  assert (Hp : parseInt (integer_toString z) = Finite z)
    by now rewrite parseInt_integer_toString.
  destruct (find_hit (matches (Finite z)) (courses st) r Hin) as [r' Hr'].
  { now apply matches_finite. }
  exists r'. split; [|split].
  - apply get_by_id_found. now rewrite Hp.
  - now apply (find_some_inv _ _ _ Hr').
  - apply find_some_inv in Hr' as [_ Hm].
    apply matches_finite in Hm. congruence.
Qed.

Lemma listed_id_resolves_witness :
  exists r',
    coursesRouter (GetId (code_units "2")) duplicated = (found r', duplicated) /\
    In r' (courses duplicated) /\
    id_of r' = id_of terraform_advanced.
Proof.
  apply (listed_id_resolves duplicated terraform_advanced 2).
  - simpl. right. right. left. reflexivity.
  - reflexivity.
  - reflexivity.
Defined.

(** X9. With unique ids the order of the dataset does not matter to the
    id route: two collections holding the same records in different
    orders answer every parameter alike. *)
Theorem unique_ids_order_irrelevant (st st' : Store) (s : jsstring) :
  Permutation (courses st) (courses st') ->
  unique_ids (courses st) ->
  fst (coursesRouter (GetId s) st) = fst (coursesRouter (GetId s) st').
Proof.
  intros Hperm Huniq.
  destruct (find (matches (parseInt s)) (courses st)) as [r|] eqn:E.
  - rewrite (proj2 (router_found_iff st s r) E). symmetry.
    apply router_found_iff.
    destruct (find_some_inv _ _ _ E) as [Hin Hm].
    assert (Hin' : In r (courses st')) by exact (Permutation_in r Hperm Hin).
    destruct (find_hit _ _ r Hin' Hm) as [y Hy].
    rewrite Hy. f_equal.
    destruct (find_some_inv _ _ _ Hy) as [Hyin Hym].
    apply (unique_ids_inj (courses st)); auto.
    + exact (Permutation_in y (Permutation_sym Hperm) Hyin).
    + apply matches_id in Hm as [Hm _]. apply matches_id in Hym as [Hym _].
      congruence.
  - rewrite (proj2 (router_not_found_iff st s) E). symmetry.
    apply router_not_found_iff, find_none_absent.
    apply (absent_perm _ _ _ Hperm). now apply find_none_absent.
Qed.

Lemma unique_ids_order_irrelevant_witness :
  fst (coursesRouter (GetId (code_units "2")) scenario)
  = fst (coursesRouter (GetId (code_units "2")) reordered).
Proof.
  apply (unique_ids_order_irrelevant scenario reordered (code_units "2")).
  - apply perm_swap.
  - exact scenario_unique_ids.
Defined.

(** X10. Records appended to the dataset never change an answer that was
    a 200: the id route keeps returning the same record.  A parameter
    that got 404 is then answered from the appended records alone. *)
Theorem appended_records_keep_answers (st : Store) (more : list object) (s : jsstring) :
  (forall r,
     fst (coursesRouter (GetId s) st) = found r ->
     fst (coursesRouter (GetId s) (mkStore (courses st ++ more))) = found r) /\
  (fst (coursesRouter (GetId s) st) = not_found ->
   fst (coursesRouter (GetId s) (mkStore (courses st ++ more)))
   = fst (coursesRouter (GetId s) (mkStore more))).
Proof.
  split.
  - intros r H. apply router_found_iff in H. apply router_found_iff.
    simpl. now rewrite find_app, H.
  - intros H. apply router_not_found_iff in H.
    simpl. rewrite !get_by_id_run. simpl. now rewrite find_app, H.
Qed.
